(** * datasets: the packaging program and the transform cache contract

    The repository's source is [setup.py], the program that declares the
    distribution [datasets]: its base requirements, the optional requirement
    groups ("extras") and the call to [setup].  Module [Packaging] embeds that
    program statement by statement.  The requirement lists are Python list
    objects: [TESTS_REQUIRE] is extended in place and the extras dictionary
    holds references to the lists, so the embedding keeps a heap of list
    objects and binds names and dictionary values to addresses.

    Module [CacheManager] is a model of the Transform Cache Manager that the
    specification describes in section 4.3; that component is not part of
    [setup.py]. *)

From stdpp Require Import base option list strings gmap fin_maps.

Open Scope string_scope.
Open Scope list_scope.

(** ** The packaging program, [setup.py] *)

Module Packaging.

(** *** Python list objects *)

(** A requirement is a PEP 508 string; a list object lives at an address. *)
Definition addr := nat.

Record Heap := mkHeap { cells : gmap addr (list string); next : addr }.

Definition empty_heap : Heap := mkHeap ∅ 0.

(** Evaluating a list display [[a, b, ...]] allocates a new object. *)
Definition new_list (items : list string) (h : Heap) : addr * Heap :=
  (next h, mkHeap (<[next h := items]> (cells h)) (S (next h))).

(** Reading the object a name is bound to. *)
Definition deref (h : Heap) (a : addr) : list string := cells h !!! a.

(** [a.extend(b)]: the items of [b] are appended to the object [a], in place. *)
Definition list_extend (a b : addr) (h : Heap) : Heap :=
  mkHeap (<[a := deref h a ++ deref h b]> (cells h)) (next h).

(** [a + b]: a new object holding the items of [a] followed by those of [b]. *)
Definition list_add (a b : addr) (h : Heap) : addr * Heap :=
  new_list (deref h a ++ deref h b) h.

(** A dict display [{k1: v1, ...}]: entries are stored in order, a later entry
    for the same key replacing an earlier one. *)
Definition dict_display (entries : list (string * addr)) : gmap string addr :=
  foldl (λ d kv, <[kv.1 := kv.2]> d) ∅ entries.

(** *** The module body, lines 63 to 200

    Each [let] below is one top-level statement of [setup.py], in source
    order; [h] is the heap after the statement. *)

Record Globals := mkGlobals {
  heap : Heap;
  ref_REQUIRED_PKGS : addr;
  ref_AUDIO_REQUIRE : addr;
  ref_VISION_REQURE : addr;
  ref_BENCHMARKS_REQUIRE : addr;
  ref_TESTS_REQUIRE : addr;
  ref_QUALITY_REQUIRE : addr;
  ref_EXTRAS_REQUIRE : gmap string addr
}.

Definition module_body : Globals :=
  let h := empty_heap in
  let '(REQUIRED_PKGS, h) := new_list [
    "numpy>=1.17";
    "pyarrow>=6.0.0";
    "dill<0.3.6";
    "pandas";
    "requests>=2.19.0";
    "tqdm>=4.62.1";
    "dataclasses;python_version<'3.7'";
    "xxhash";
    "multiprocess";
    "importlib_metadata;python_version<'3.8'";
    "fsspec[http]>=2021.05.0";
    "aiohttp";
    "huggingface-hub>=0.1.0,<1.0.0";
    "packaging";
    "responses<0.19"
  ] h in
  let '(AUDIO_REQUIRE, h) := new_list [ "librosa" ] h in
  let '(VISION_REQURE, h) := new_list [ "Pillow>=6.2.1" ] h in
  let '(BENCHMARKS_REQUIRE, h) := new_list [
    "numpy==1.18.5";
    "tensorflow==2.3.0";
    "torch==1.6.0";
    "transformers==3.0.2"
  ] h in
  let '(TESTS_REQUIRE, h) := new_list [
    (* test dependencies *)
    "absl-py";
    "pytest";
    "pytest-datadir";
    "pytest-xdist";
    (* optional dependencies *)
    "apache-beam>=2.26.0";
    "elasticsearch<8.0.0";
    "aiobotocore==1.4.2";
    "boto3==1.17.106";
    "botocore==1.20.106";
    "faiss-cpu>=1.6.4";
    "fsspec[s3]";
    "moto[s3,server]==2.0.4";
    "rarfile>=4.0";
    "s3fs==2021.08.1";
    "tensorflow>=2.3,!=2.6.0,!=2.6.1";
    "torch";
    "torchaudio";
    "soundfile";
    "transformers";
    (* datasets dependencies *)
    "bs4";
    "conllu";
    "h5py";
    "langdetect";
    "lxml";
    "lz4";
    "mwparserfromhell";
    "nltk";
    "openpyxl";
    "py7zr";
    "tldextract";
    "zstandard";
    "bigbench @ https://storage.googleapis.com/public_research_data/bigbench/bigbench-0.0.1.tar.gz";
    "sentencepiece";
    "sacremoses";
    (* metrics dependencies *)
    "bert_score>=0.3.6";
    "jiwer";
    "mauve-text";
    "rouge_score";
    "sacrebleu";
    "sacremoses";
    "scikit-learn";
    "scipy";
    "sentencepiece";
    "seqeval";
    (* to speed up pip backtracking *)
    "toml>=0.10.1";
    "requests_file>=1.5.1";
    "tldextract>=3.1.0";
    "texttable>=1.6.3";
    "Werkzeug>=1.0.1";
    "six~=1.15.0";
    (* metadata validation *)
    "importlib_resources;python_version<'3.7'"
  ] h in
  let h := list_extend TESTS_REQUIRE VISION_REQURE h in
  let h := list_extend TESTS_REQUIRE AUDIO_REQUIRE h in
  let '(QUALITY_REQUIRE, h) := new_list [
    "black~=22.0"; "flake8>=3.8.3"; "isort>=5.0.0"; "pyyaml>=5.3.1"
  ] h in
  (* the values of the dict display, evaluated entry by entry *)
  let '(apache_beam, h) := new_list [ "apache-beam>=2.26.0" ] h in
  let '(tensorflow, h) := new_list [ "tensorflow>=2.2.0,!=2.6.0,!=2.6.1" ] h in
  let '(tensorflow_gpu, h) := new_list [ "tensorflow-gpu>=2.2.0,!=2.6.0,!=2.6.1" ] h in
  let '(torch, h) := new_list [ "torch" ] h in
  let '(s3, h) := new_list [ "fsspec"; "boto3"; "botocore"; "s3fs" ] h in
  let '(streaming, h) := new_list [] h in
  let '(dev, h) := list_add TESTS_REQUIRE QUALITY_REQUIRE h in
  let '(docs, h) := new_list [ "s3fs" ] h in
  let EXTRAS_REQUIRE := dict_display [
    ("audio", AUDIO_REQUIRE);
    ("vision", VISION_REQURE);
    ("apache-beam", apache_beam);
    ("tensorflow", tensorflow);
    ("tensorflow_gpu", tensorflow_gpu);
    ("torch", torch);
    ("s3", s3);
    ("streaming", streaming);
    ("dev", dev);
    ("tests", TESTS_REQUIRE);
    ("quality", QUALITY_REQUIRE);
    ("benchmarks", BENCHMARKS_REQUIRE);
    ("docs", docs)
  ] in
  mkGlobals h REQUIRED_PKGS AUDIO_REQUIRE VISION_REQURE BENCHMARKS_REQUIRE
            TESTS_REQUIRE QUALITY_REQUIRE EXTRAS_REQUIRE.

(** The module's names after evaluation, read through the heap. *)
Definition value_of (ref : Globals → addr) : list string :=
  deref (heap module_body) (ref module_body).

Definition REQUIRED_PKGS : list string := value_of ref_REQUIRED_PKGS.
Definition AUDIO_REQUIRE : list string := value_of ref_AUDIO_REQUIRE.
Definition VISION_REQURE : list string := value_of ref_VISION_REQURE.
Definition BENCHMARKS_REQUIRE : list string := value_of ref_BENCHMARKS_REQUIRE.
Definition TESTS_REQUIRE : list string := value_of ref_TESTS_REQUIRE.
Definition QUALITY_REQUIRE : list string := value_of ref_QUALITY_REQUIRE.

Definition EXTRAS_REQUIRE : gmap string (list string) :=
  deref (heap module_body) <$> ref_EXTRAS_REQUIRE module_body.

(** *** The call to [setup], lines 202 to 236

    Of the keyword arguments, the requirement metadata is what the
    distribution's dependency resolution reads. *)

Record Distribution := mkDistribution {
  name : string;
  version : string;
  install_requires : list string;
  extras_require : gmap string (list string)
}.

Definition setup : Distribution :=
  mkDistribution "datasets" "2.3.2.dev0" REQUIRED_PKGS EXTRAS_REQUIRE.

(** The requirement strings that the arguments of [setup] list for
    [datasets[extra]]: [install_requires] followed by the group stored under
    the key [extra], and nothing when the mapping has no such key.  This is a
    lookup in the two arguments as [setup] receives them.  It is not the
    installer: installers are not part of [setup.py], and they also normalise
    the names of extras and evaluate environment markers. *)
Definition requested (d : Distribution) (extra : string) : option (list string) :=
  (λ group, install_requires d ++ group) <$> extras_require d !! extra.

End Packaging.

(** ** The Transform Cache Manager, specification section 4.3 *)

Module CacheManager.

Section Manager.

(** The manager treats three things as opaque: the content of a row, the
    exception a user transform raises, and whatever state the user's compute
    function carries from one invocation to the next (a Python callable may
    count its calls or answer differently each time). *)
Context {Row Cause UserState : Type}.

(** Modelled from the spec: the Fingerprint of section 3, "an opaque
    fixed-length content hash ... used as the sole identity for cache
    lookups".  The Fingerprint Engine that computes it is not in [setup.py];
    the manager only compares fingerprints, so the model takes the digest as
    a string. *)
Definition Fingerprint := string.

(** Modelled from the spec: the Table of section 3, "an immutable columnar
    block" whose bytes are never mutated once written.  The Table Store and
    its file format are not in [setup.py]; the model identifies the bytes of a
    table file with the rows they hold. *)
Record Table := mkTable { rows : list Row }.

(** Modelled from the spec: the Table Store operation [write] of section 4.1,
    which "materializes a new immutable table file and returns a handle to
    it".  The Table Store is not in [setup.py]. *)
Definition write (rs : list Row) : Table := mkTable rs.

(** Modelled from the spec: the error taxonomy of section 7, restricted to the
    error section 4.3 gives [get_or_compute]: "TransformComputeError (user
    transform logic failed — propagated with original cause, cache left
    untouched)".  Faults of the storage medium (CorruptTableError,
    CacheWriteError) are outside the model: the cache directory below neither
    loses nor damages what was written to it. *)
Inductive Error :=
  | TransformComputeError (cause : Cause).

Inductive Result (A : Type) :=
  | Ok (a : A)
  | Err (e : Error).
Global Arguments Ok {A} a.
Global Arguments Err {A} e.

(** Modelled from the spec: the [compute_fn] argument of [get_or_compute]
    (section 4.3), user code that is invoked "to produce rows" and may raise.
    One invocation either produces rows or raises, and moves the user's own
    state. *)
Inductive Computed :=
  | Produced (rs : list Row)
  | Raised (cause : Cause).

Definition ComputeFn := UserState → Computed * UserState.

(** What an observer of one invocation of [compute_fn] records, as the
    recording [compute_fn] of the specification's section 8 does. *)
Inductive Invocation :=
  | Returned
  | Raise (cause : Cause).

(** Modelled from the spec: the cache directory of sections 3 and 6, "one file
    per fingerprint", each cache entry a "mapping from fingerprint to a
    materialized Table"; it is "the only mutable shared resource in the core"
    (section 5).  The world a call runs in is the cache directory, the user's
    state, and the record of the invocations of [compute_fn] made so far,
    most recent first. *)
Record World := mkWorld {
  cache : gmap Fingerprint Table;
  user : UserState;
  invoked : list Invocation
}.

(** Modelled from the spec: the Table Store operation [load] of section 4.1,
    applied to the file of a cache entry; there is no entry to load when the
    fingerprint has no file. *)
Definition load (fp : Fingerprint) (w : World) : option Table := cache w !! fp.

(** Modelled from the spec: [get_or_compute(fingerprint, compute_fn) -> Table]
    of section 4.3, which is not in [setup.py].  "Looks up an existing cache
    entry for fingerprint; on hit, loads and returns the stored Table (via
    4.1) without invoking compute_fn.  On miss, invokes compute_fn to produce
    rows, writes them atomically to a new cache entry under fingerprint, and
    returns the resulting Table. ... if compute_fn raises, no cache entry is
    created or left partially written; the failure propagates to the caller as
    TransformComputeError wrapping the underlying cause."  The atomic write is
    the single update of [cache]. *)
Definition get_or_compute (fp : Fingerprint) (compute_fn : ComputeFn) (w : World)
  : Result Table * World :=
  match load fp w with
  | Some t => (Ok t, w)
  | None =>
      match compute_fn (user w) with
      | (Produced rs, u) =>
          let t := write rs in
          (Ok t, mkWorld (<[fp := t]> (cache w)) u (Returned :: invoked w))
      | (Raised cause, u) =>
          (Err (TransformComputeError cause), mkWorld (cache w) u (Raise cause :: invoked w))
      end
  end.

(** Two calls in a row with the same arguments: the results of both and the
    world after the second. *)
Definition get_or_compute_twice (fp : Fingerprint) (compute_fn : ComputeFn) (w : World)
  : Result Table * Result Table * World :=
  let '(r1, w1) := get_or_compute fp compute_fn w in
  let '(r2, w2) := get_or_compute fp compute_fn w1 in
  (r1, r2, w2).

(** The invocations of [compute_fn] made between an earlier world and a later
    one. *)
Definition invocations_since (w w' : World) : nat :=
  length (invoked w') - length (invoked w).

(** Cache idempotence as section 8 words it: the two calls invoke [compute_fn]
    at most once and the second returns what the first returned. *)
Definition idempotent_at (fp : Fingerprint) (compute_fn : ComputeFn) (w : World) : Prop :=
  let '(r1, r2, w2) := get_or_compute_twice fp compute_fn w in
  (invocations_since w w2 ≤ 1)%nat ∧ r2 = r1.

End Manager.

Global Arguments Table : clear implicits.
Global Arguments World : clear implicits.
Global Arguments ComputeFn : clear implicits.
Global Arguments Error : clear implicits.

(** *** Concrete callers

    Rows are numbers, causes are messages.  [always_raises] is a transform
    that fails on every invocation; [counting_fn] keeps a counter and produces
    different rows each time it is invoked. *)

Definition always_raises : ComputeFn nat string unit :=
  λ u, (Raised "boom", u).

Definition counting_fn : ComputeFn nat string nat :=
  λ n, (Produced [n; S n], S n).

Definition fresh_world {Row Cause UserState : Type} (u : UserState)
  : World Row Cause UserState :=
  mkWorld ∅ u [].

End CacheManager.

(** ** The statements of [setup.py], for any list contents *)

Module PackagingStructure.
Import Packaging.

(** The items of the thirteen list displays of [setup.py]: the six named
    lists (lines 63 to 175) and the seven lists written inside the dict
    display (lines 181 to 199). *)
Record Displays := mkDisplays {
  items_REQUIRED_PKGS : list string;
  items_AUDIO_REQUIRE : list string;
  items_VISION_REQURE : list string;
  items_BENCHMARKS_REQUIRE : list string;
  items_TESTS_REQUIRE : list string;
  items_QUALITY_REQUIRE : list string;
  items_apache_beam : list string;
  items_tensorflow : list string;
  items_tensorflow_gpu : list string;
  items_torch : list string;
  items_s3 : list string;
  items_streaming : list string;
  items_docs : list string
}.

(** The top-level statements of lines 63 to 200 in source order, with the
    items of each list display taken from [d]: the same assignments, the same
    two [extend] calls and the same dict display as [module_body]. *)
Definition module_statements (d : Displays) : Globals :=
  let h := empty_heap in
  let '(REQUIRED_PKGS, h) := new_list (items_REQUIRED_PKGS d) h in
  let '(AUDIO_REQUIRE, h) := new_list (items_AUDIO_REQUIRE d) h in
  let '(VISION_REQURE, h) := new_list (items_VISION_REQURE d) h in
  let '(BENCHMARKS_REQUIRE, h) := new_list (items_BENCHMARKS_REQUIRE d) h in
  let '(TESTS_REQUIRE, h) := new_list (items_TESTS_REQUIRE d) h in
  let h := list_extend TESTS_REQUIRE VISION_REQURE h in
  let h := list_extend TESTS_REQUIRE AUDIO_REQUIRE h in
  let '(QUALITY_REQUIRE, h) := new_list (items_QUALITY_REQUIRE d) h in
  let '(apache_beam, h) := new_list (items_apache_beam d) h in
  let '(tensorflow, h) := new_list (items_tensorflow d) h in
  let '(tensorflow_gpu, h) := new_list (items_tensorflow_gpu d) h in
  let '(torch, h) := new_list (items_torch d) h in
  let '(s3, h) := new_list (items_s3 d) h in
  let '(streaming, h) := new_list (items_streaming d) h in
  let '(dev, h) := list_add TESTS_REQUIRE QUALITY_REQUIRE h in
  let '(docs, h) := new_list (items_docs d) h in
  let EXTRAS_REQUIRE := dict_display [
    ("audio", AUDIO_REQUIRE);
    ("vision", VISION_REQURE);
    ("apache-beam", apache_beam);
    ("tensorflow", tensorflow);
    ("tensorflow_gpu", tensorflow_gpu);
    ("torch", torch);
    ("s3", s3);
    ("streaming", streaming);
    ("dev", dev);
    ("tests", TESTS_REQUIRE);
    ("quality", QUALITY_REQUIRE);
    ("benchmarks", BENCHMARKS_REQUIRE);
    ("docs", docs)
  ] in
  mkGlobals h REQUIRED_PKGS AUDIO_REQUIRE VISION_REQURE BENCHMARKS_REQUIRE
            TESTS_REQUIRE QUALITY_REQUIRE EXTRAS_REQUIRE.

(** A module name and the extras dictionary, read through the heap of an
    evaluated module. *)
Definition value_in (g : Globals) (ref : Globals → addr) : list string :=
  deref (heap g) (ref g).

Definition extras_in (g : Globals) : gmap string (list string) :=
  deref (heap g) <$> ref_EXTRAS_REQUIRE g.

(** The call to [setup] on an evaluated module (lines 217 and 218). *)
Definition setup_of (g : Globals) : Distribution :=
  mkDistribution "datasets" "2.3.2.dev0" (value_in g ref_REQUIRED_PKGS) (extras_in g).

(** The displays of [setup.py] itself, read back from [module_body]; the
    display of [TESTS_REQUIRE] is the 51 items it has before lines 172 and
    173 extend it. *)
Definition source_displays : Displays :=
  let extra k := default [] (EXTRAS_REQUIRE !! k) in
  mkDisplays REQUIRED_PKGS AUDIO_REQUIRE VISION_REQURE BENCHMARKS_REQUIRE
    (take 51 TESTS_REQUIRE) QUALITY_REQUIRE
    (extra "apache-beam") (extra "tensorflow") (extra "tensorflow_gpu")
    (extra "torch") (extra "s3") (extra "streaming") (extra "docs").

(** The names under which [setup.py] declares an extra, in the order of the
    dict display. *)
Definition extras_names : list string :=
  [ "audio"; "vision"; "apache-beam"; "tensorflow"; "tensorflow_gpu"; "torch";
    "s3"; "streaming"; "dev"; "tests"; "quality"; "benchmarks"; "docs" ].

(** The entries of the dict display with the object each value denotes when
    the display is evaluated: the six named lists are the objects 0 to 5 in
    the order of their assignments, and each list display or [+] inside the
    dict display makes the next object. *)
Definition extras_entries : list (string * addr) :=
  [ ("audio", 1); ("vision", 2); ("apache-beam", 6); ("tensorflow", 7);
    ("tensorflow_gpu", 8); ("torch", 9); ("s3", 10); ("streaming", 11);
    ("dev", 12); ("tests", 4); ("quality", 5); ("benchmarks", 3); ("docs", 13) ].

End PackagingStructure.

(** ** Properties of the packaging program *)

Module PackagingFacts.
Import Packaging.

(** *** The heap operations *)

Lemma deref_new_list items h :
  deref (new_list items h).2 (new_list items h).1 = items.
Proof. unfold deref, new_list; simpl. by rewrite lookup_total_insert_eq. Qed.

Lemma deref_new_list_old items h a :
  a ≠ next h → deref (new_list items h).2 a = deref h a.
Proof. intros Hne. unfold deref, new_list; simpl. by rewrite lookup_total_insert_ne. Qed.

Lemma deref_list_extend a b h :
  deref (list_extend a b h) a = deref h a ++ deref h b.
Proof. unfold list_extend, deref at 1; simpl. by rewrite lookup_total_insert_eq. Qed.

Lemma deref_list_extend_other a b c h :
  c ≠ a → deref (list_extend a b h) c = deref h c.
Proof. intros Hne. unfold list_extend, deref at 1; simpl. by rewrite lookup_total_insert_ne. Qed.

(** Two [extend] calls on one list with two other lists, as on lines 172 and
    173: the target ends with the items of both, in call order. *)
Lemma deref_list_extend_twice t v a h :
  v ≠ t → a ≠ t →
  deref (list_extend t a (list_extend t v h)) t = deref h t ++ deref h v ++ deref h a.
Proof.
  intros Hv Ha.
  rewrite deref_list_extend, deref_list_extend, deref_list_extend_other by done.
  by rewrite <- (assoc_L (++)).
Qed.

(** [a + b] leaves its operands as they were. *)
Lemma deref_list_add a b h :
  deref (list_add a b h).2 (list_add a b h).1 = deref h a ++ deref h b.
Proof. apply deref_new_list. Qed.

(** An extra whose group is empty resolves to the base requirements. *)
Lemma requested_empty_group d extra :
  extras_require d !! extra = Some [] → requested d extra = Some (install_requires d).
Proof. intros H. unfold requested. rewrite H; simpl. by rewrite app_nil_r. Qed.

(** *** The module after evaluation *)

(** Closed facts about the evaluated module are decided by running the
    embedding. *)
Ltac by_evaluation := vm_compute; first [reflexivity | discriminate].

(** The dictionary holds the list objects themselves: the "tests", "audio",
    "vision" and "quality" entries are the objects the module names are bound
    to, while "dev" is an object of its own. *)
Lemma extras_share_objects :
  ref_EXTRAS_REQUIRE module_body !! "tests" = Some (ref_TESTS_REQUIRE module_body) ∧
  ref_EXTRAS_REQUIRE module_body !! "audio" = Some (ref_AUDIO_REQUIRE module_body) ∧
  ref_EXTRAS_REQUIRE module_body !! "vision" = Some (ref_VISION_REQURE module_body) ∧
  ref_EXTRAS_REQUIRE module_body !! "quality" = Some (ref_QUALITY_REQUIRE module_body) ∧
  ref_EXTRAS_REQUIRE module_body !! "dev" ≠ Some (ref_TESTS_REQUIRE module_body).
Proof. repeat split; by_evaluation. Qed.

(** After lines 172 and 173, [TESTS_REQUIRE] is its list display (51 items)
    followed by the vision and the audio requirements. *)
Lemma TESTS_REQUIRE_extended :
  TESTS_REQUIRE = take 51 TESTS_REQUIRE ++ VISION_REQURE ++ AUDIO_REQUIRE.
Proof. by_evaluation. Qed.

Lemma EXTRAS_REQUIRE_dev :
  EXTRAS_REQUIRE !! "dev" = Some (TESTS_REQUIRE ++ QUALITY_REQUIRE).
Proof. by_evaluation. Qed.

Lemma extended_contains {A} (l base v a : list A) :
  l = base ++ v ++ a → v ⊆ l ∧ a ⊆ l.
Proof.
  intros ->. split; intros x Hx; rewrite !elem_of_app; auto.
Qed.

Lemma subseteq_app_left {A} (l1 l2 k : list A) : l1 ⊆ l2 → l1 ⊆ l2 ++ k.
Proof. intros H x Hx. rewrite elem_of_app. auto. Qed.

Lemma subseteq_app_right {A} (l k : list A) : k ⊆ l ++ k.
Proof. intros x Hx. rewrite elem_of_app. auto. Qed.

(** C9: the extras mapping passed to [setup] binds "streaming" to the empty
    list, so what is resolved for [datasets[streaming]] is exactly
    [install_requires], which is [REQUIRED_PKGS]: the extra adds no package. *)
Theorem streaming_extra_adds_nothing :
  extras_require setup !! "streaming" = Some [] ∧
  requested setup "streaming" = Some (install_requires setup) ∧
  install_requires setup = REQUIRED_PKGS.
Proof.
  assert (extras_require setup !! "streaming" = Some []) as H by by_evaluation.
  split; [exact H|]. split; [|by_evaluation].
  exact (requested_empty_group setup "streaming" H).
Qed.

(** C10: after the module is evaluated, [TESTS_REQUIRE] contains every
    requirement of [VISION_REQURE] and of [AUDIO_REQUIRE]; the "dev" extra is
    [TESTS_REQUIRE] followed by [QUALITY_REQUIRE]; hence the "tests" extra
    contains the "vision" and "audio" extras, and the "dev" extra contains the
    "vision", "audio" and "quality" extras. *)
Theorem tests_and_dev_extras_are_supersets :
  VISION_REQURE ⊆ TESTS_REQUIRE ∧
  AUDIO_REQUIRE ⊆ TESTS_REQUIRE ∧
  extras_require setup !! "dev" = Some (TESTS_REQUIRE ++ QUALITY_REQUIRE) ∧
  extras_require setup !! "tests" = Some TESTS_REQUIRE ∧
  extras_require setup !! "vision" = Some VISION_REQURE ∧
  extras_require setup !! "audio" = Some AUDIO_REQUIRE ∧
  extras_require setup !! "quality" = Some QUALITY_REQUIRE ∧
  VISION_REQURE ⊆ TESTS_REQUIRE ++ QUALITY_REQUIRE ∧
  AUDIO_REQUIRE ⊆ TESTS_REQUIRE ++ QUALITY_REQUIRE ∧
  QUALITY_REQUIRE ⊆ TESTS_REQUIRE ++ QUALITY_REQUIRE.
Proof.
  destruct (extended_contains TESTS_REQUIRE (take 51 TESTS_REQUIRE)
              VISION_REQURE AUDIO_REQUIRE TESTS_REQUIRE_extended) as [Hv Ha].
  split; [exact Hv|]. split; [exact Ha|].
  split; [exact EXTRAS_REQUIRE_dev|].
  do 4 (split; [by_evaluation|]).
  split; [exact (subseteq_app_left _ _ _ Hv)|].
  split; [exact (subseteq_app_left _ _ _ Ha)|].
  exact (subseteq_app_right _ _).
Qed.

End PackagingFacts.

(** ** Properties of the module's statements, for any list contents *)

Module PackagingStructureFacts.
Import Packaging PackagingStructure.

(** *** Dict displays *)

Lemma dict_display_snoc es k a :
  dict_display (es ++ [(k, a)]) = <[k := a]> (dict_display es).
Proof. unfold dict_display. by rewrite foldl_app. Qed.

(** The entry written last for a key is the one the dict holds. *)
Lemma dict_display_last_wins es k a es' :
  k ∉ es'.*1 → dict_display (es ++ (k, a) :: es') !! k = Some a.
Proof.
  induction es' as [|[k' a'] es' IH] using rev_ind; intros Hk.
  - rewrite dict_display_snoc. apply lookup_insert_eq.
  - rewrite fmap_app, not_elem_of_app in Hk. destruct Hk as [Hk Hk'].
    cbn in Hk'. rewrite list_elem_of_singleton in Hk'.
    rewrite app_comm_cons, (assoc_L (++)), dict_display_snoc.
    rewrite lookup_insert_ne by done. by apply IH.
Qed.

(** X4: in a dict display whose keys are pairwise distinct, as the thirteen
    keys of [EXTRAS_REQUIRE] are, no entry is replaced by a later one: looking
    up the key of any entry gives the value of that entry. *)
Theorem dict_display_lookup es k a :
  NoDup es.*1 → (k, a) ∈ es → dict_display es !! k = Some a.
Proof.
  intros Hnd (l1 & l2 & ->)%list_elem_of_split.
  apply dict_display_last_wins.
  rewrite fmap_app, fmap_cons in Hnd.
  apply NoDup_app in Hnd as (_ & _ & Hnd).
  by apply NoDup_cons in Hnd as [? _].
Qed.

Lemma extras_display_keeps_dev_entry :
  NoDup extras_entries.*1 ∧ ("dev", 12) ∈ extras_entries ∧
  dict_display extras_entries !! "dev" = Some 12.
Proof.
  assert (NoDup extras_entries.*1) as Hnd
    by (apply (bool_decide_unpack _); vm_compute; exact I).
  assert (("dev", 12) ∈ extras_entries) as Hin
    by (apply (bool_decide_unpack _); vm_compute; exact I).
  split; [exact Hnd|]. split; [exact Hin|].
  exact (dict_display_lookup extras_entries "dev" 12 Hnd Hin).
Defined.

(** *** The module's statements and the module *)

(** [module_body] is [module_statements] run on the displays of [setup.py]. *)
Lemma module_body_runs_statements : module_body = module_statements source_displays.
Proof. vm_compute. reflexivity. Qed.

Lemma setup_runs_statements : setup = setup_of (module_statements source_displays).
Proof. vm_compute. reflexivity. Qed.

(** *** Contents *)

(** Evaluation appends in call order, so the sums associate to the left. *)
Lemma TESTS_REQUIRE_evaluated d :
  value_in (module_statements d) ref_TESTS_REQUIRE
  = (items_TESTS_REQUIRE d ++ items_VISION_REQURE d) ++ items_AUDIO_REQUIRE d.
Proof. destruct d. vm_compute. reflexivity. Qed.

Lemma tests_extra_evaluated d :
  extras_require (setup_of (module_statements d)) !! "tests"
  = Some ((items_TESTS_REQUIRE d ++ items_VISION_REQURE d) ++ items_AUDIO_REQUIRE d).
Proof. destruct d. vm_compute. reflexivity. Qed.

Lemma dev_extra_evaluated d :
  extras_require (setup_of (module_statements d)) !! "dev"
  = Some (((items_TESTS_REQUIRE d ++ items_VISION_REQURE d) ++ items_AUDIO_REQUIRE d)
          ++ items_QUALITY_REQUIRE d).
Proof. destruct d. vm_compute. reflexivity. Qed.

(** X1: whatever the list displays hold, after the module's statements
    [TESTS_REQUIRE] is its own display followed by the items of
    [VISION_REQURE] and then of [AUDIO_REQUIRE]; the "tests" extra passed to
    [setup] is that extended list, and the "dev" extra is that extended list
    followed by the items of [QUALITY_REQUIRE]. *)
Theorem tests_and_dev_for_any_contents d :
  let g := module_statements d in
  let tests := items_TESTS_REQUIRE d ++ items_VISION_REQURE d ++ items_AUDIO_REQUIRE d in
  value_in g ref_TESTS_REQUIRE = tests ∧
  extras_require (setup_of g) !! "tests" = Some tests ∧
  extras_require (setup_of g) !! "dev" = Some (tests ++ items_QUALITY_REQUIRE d).
Proof.
  intros g tests. unfold g, tests. rewrite !(assoc_L (++)).
  split; [exact (TESTS_REQUIRE_evaluated d)|].
  split; [exact (tests_extra_evaluated d) | exact (dev_extra_evaluated d)].
Qed.

(** X2: the two [extend] calls change [TESTS_REQUIRE] only.  Whatever the
    list displays hold, after the module's statements every other named list
    has exactly the items of its display, [install_requires] is the display of
    [REQUIRED_PKGS], and every extra other than "tests" and "dev" is exactly
    the display written or named in its entry. *)
Theorem other_lists_keep_their_displays d :
  let g := module_statements d in
  value_in g ref_REQUIRED_PKGS = items_REQUIRED_PKGS d ∧
  value_in g ref_AUDIO_REQUIRE = items_AUDIO_REQUIRE d ∧
  value_in g ref_VISION_REQURE = items_VISION_REQURE d ∧
  value_in g ref_BENCHMARKS_REQUIRE = items_BENCHMARKS_REQUIRE d ∧
  value_in g ref_QUALITY_REQUIRE = items_QUALITY_REQUIRE d ∧
  install_requires (setup_of g) = items_REQUIRED_PKGS d ∧
  extras_require (setup_of g) !! "audio" = Some (items_AUDIO_REQUIRE d) ∧
  extras_require (setup_of g) !! "vision" = Some (items_VISION_REQURE d) ∧
  extras_require (setup_of g) !! "quality" = Some (items_QUALITY_REQUIRE d) ∧
  extras_require (setup_of g) !! "benchmarks" = Some (items_BENCHMARKS_REQUIRE d) ∧
  extras_require (setup_of g) !! "apache-beam" = Some (items_apache_beam d) ∧
  extras_require (setup_of g) !! "tensorflow" = Some (items_tensorflow d) ∧
  extras_require (setup_of g) !! "tensorflow_gpu" = Some (items_tensorflow_gpu d) ∧
  extras_require (setup_of g) !! "torch" = Some (items_torch d) ∧
  extras_require (setup_of g) !! "s3" = Some (items_s3 d) ∧
  extras_require (setup_of g) !! "streaming" = Some (items_streaming d) ∧
  extras_require (setup_of g) !! "docs" = Some (items_docs d).
Proof. destruct d. vm_compute. repeat split. Qed.

(** *** The objects behind the extras *)

(** Which object a key is bound to does not depend on what the lists hold. *)
Lemma extras_bindings d :
  map_to_list (ref_EXTRAS_REQUIRE (module_statements d)) ≡ₚ extras_entries.
Proof. apply (bool_decide_unpack _). vm_compute. exact I. Qed.

Lemma extras_bound d e a :
  ref_EXTRAS_REQUIRE (module_statements d) !! e = Some a ↔ (e, a) ∈ extras_entries.
Proof. rewrite <- elem_of_map_to_list. by rewrite (extras_bindings d). Qed.

Lemma extras_keys d e :
  is_Some (ref_EXTRAS_REQUIRE (module_statements d) !! e) ↔ e ∈ extras_names.
Proof.
  change extras_names with (extras_entries.*1). rewrite list_elem_of_fmap. split.
  - intros [a Ha]. exists (e, a). split; [done | exact (proj1 (extras_bound d e a) Ha)].
  - intros ([e' a] & -> & Ha). exists a. exact (proj2 (extras_bound d e' a) Ha).
Qed.

Lemma extras_entries_in_heap e a : (e, a) ∈ extras_entries → 0 < a < 14.
Proof.
  assert (Forall (λ p, 0 < p.2 < 14) extras_entries) as Hall
    by (apply (bool_decide_unpack _); vm_compute; exact I).
  rewrite Forall_forall in Hall. exact (Hall (e, a)).
Qed.

Lemma NoDup_snd_inj {A B} (l : list (A * B)) x1 x2 y :
  NoDup l.*2 → (x1, y) ∈ l → (x2, y) ∈ l → x1 = x2.
Proof.
  induction l as [|[x0 y0] l IH]; cbn; intros Hnd H1 H2.
  - by apply elem_of_nil in H1.
  - apply NoDup_cons in Hnd as [Hy0 Hnd].
    assert (∀ x, (x, y0) ∈ l → False) as Hfresh.
    { intros x Hx. apply Hy0. apply list_elem_of_fmap. by exists (x, y0). }
    apply elem_of_cons in H1 as [H1|H1]; apply elem_of_cons in H2 as [H2|H2].
    + congruence.
    + injection H1 as -> ->. by destruct (Hfresh x2).
    + injection H2 as -> ->. by destruct (Hfresh x1).
    + by apply IH.
Qed.

(** X3: whatever the list displays hold, the mapping passed to [setup] as
    [extras_require] has exactly thirteen entries, and its keys are the
    thirteen strings written as keys in the dict display: a string is a key
    of the mapping if and only if it is one of them, as written. *)
Theorem extras_require_has_the_thirteen_keys d :
  let dist := setup_of (module_statements d) in
  size (extras_require dist) = 13 ∧
  ∀ e, is_Some (extras_require dist !! e) ↔ e ∈ extras_names.
Proof.
  intros dist. subst dist.
  change (extras_require (setup_of (module_statements d)))
    with (extras_in (module_statements d)).
  unfold extras_in. split.
  - rewrite map_size_fmap. vm_compute. reflexivity.
  - intros e. rewrite lookup_fmap, fmap_is_Some. apply extras_keys.
Qed.

(** X5: no two extras share a list object, and no extra is the object passed
    as [install_requires]: two different keys of [EXTRAS_REQUIRE] are never
    bound to the same object, and the object of a key is never the one
    [REQUIRED_PKGS] names.  In particular "dev" is not the object of
    "tests". *)
Theorem extras_are_distinct_objects d e1 e2 a :
  e1 ≠ e2 →
  ref_EXTRAS_REQUIRE (module_statements d) !! e1 = Some a →
  ref_EXTRAS_REQUIRE (module_statements d) !! e2 ≠ Some a ∧
  a ≠ ref_REQUIRED_PKGS (module_statements d).
Proof.
  intros Hne H1. apply extras_bound in H1. split.
  - intros H2. apply extras_bound in H2. apply Hne.
    refine (NoDup_snd_inj extras_entries e1 e2 a _ H1 H2).
    apply (bool_decide_unpack _). vm_compute. exact I.
  - apply extras_entries_in_heap in H1.
    change (ref_REQUIRED_PKGS (module_statements d)) with 0. lia.
Qed.

Lemma dev_is_not_the_tests_object :
  "tests" ≠ "dev" ∧
  ref_EXTRAS_REQUIRE (module_statements source_displays) !! "tests" = Some 4 ∧
  ref_EXTRAS_REQUIRE (module_statements source_displays) !! "dev" ≠ Some 4 ∧
  4 ≠ ref_REQUIRED_PKGS (module_statements source_displays).
Proof.
  assert ("tests" ≠ "dev") as Hne by (vm_compute; discriminate).
  assert (ref_EXTRAS_REQUIRE (module_statements source_displays) !! "tests" = Some 4)
    as H by (vm_compute; reflexivity).
  split; [exact Hne|]. split; [exact H|].
  exact (extras_are_distinct_objects source_displays "tests" "dev" 4 Hne H).
Defined.

(** *** Allocation *)

Lemma allocated_objects d :
  dom (cells (heap (module_statements d))) =@{gset nat} list_to_set (seq 0 14).
Proof. destruct d. vm_compute. reflexivity. Qed.

Lemma allocated_below_14 d a :
  is_Some (cells (heap (module_statements d)) !! a) ↔ a < 14.
Proof.
  rewrite <- elem_of_dom, allocated_objects, elem_of_list_to_set, elem_of_seq. lia.
Qed.

(** X7: whatever the list displays hold, evaluating lines 63 to 200 creates
    exactly fourteen list objects, the objects 0 to 13: one for each of the
    thirteen list displays and one for [TESTS_REQUIRE + QUALITY_REQUIRE]; the
    two [extend] calls create none. *)
Theorem module_allocates_fourteen_lists d a :
  next (heap (module_statements d)) = 14 ∧
  (is_Some (cells (heap (module_statements d)) !! a) ↔ a < 14).
Proof.
  split; [destruct d; vm_compute; reflexivity | apply allocated_below_14].
Qed.

(** X6: every key of [EXTRAS_REQUIRE] is bound to a list object that the
    module created, and the extra passed to [setup] under that key is the
    content of that object: no extra is read from an object that does not
    exist. *)
Theorem every_extra_is_an_allocated_list d e a :
  ref_EXTRAS_REQUIRE (module_statements d) !! e = Some a →
  ∃ items, cells (heap (module_statements d)) !! a = Some items ∧
           extras_require (setup_of (module_statements d)) !! e = Some items.
Proof.
  intros H.
  assert (is_Some (cells (heap (module_statements d)) !! a)) as [items Hitems].
  { apply allocated_below_14. apply extras_bound, extras_entries_in_heap in H. lia. }
  exists items. split; [exact Hitems|].
  change (extras_require (setup_of (module_statements d)))
    with (extras_in (module_statements d)).
  unfold extras_in. rewrite lookup_fmap, H. cbn. f_equal.
  unfold deref. by apply lookup_total_correct.
Qed.

Lemma streaming_is_an_allocated_list :
  ref_EXTRAS_REQUIRE (module_statements source_displays) !! "streaming" = Some 11 ∧
  ∃ items, cells (heap (module_statements source_displays)) !! 11 = Some items ∧
           extras_require (setup_of (module_statements source_displays)) !! "streaming"
           = Some items.
Proof.
  assert (ref_EXTRAS_REQUIRE (module_statements source_displays) !! "streaming" = Some 11)
    as H by (vm_compute; reflexivity).
  split; [exact H|].
  exact (every_extra_is_an_allocated_list source_displays "streaming" 11 H).
Defined.

End PackagingStructureFacts.

(** ** Properties of the cache manager model *)

Module CacheManagerFacts.
Import CacheManager.

Section Facts.

Context {Row Cause UserState : Type}.

Implicit Types (fp : Fingerprint) (w : World Row Cause UserState)
  (compute_fn : ComputeFn Row Cause UserState) (t : Table Row).

(** *** The three paths of [get_or_compute] *)

Lemma get_or_compute_hit fp compute_fn w t :
  load fp w = Some t → get_or_compute fp compute_fn w = (Ok t, w).
Proof. intros H. unfold get_or_compute. by rewrite H. Qed.

Lemma get_or_compute_miss_produced fp compute_fn w rs u :
  load fp w = None → compute_fn (user w) = (Produced rs, u) →
  get_or_compute fp compute_fn w
  = (Ok (write rs), mkWorld (<[fp := write rs]> (cache w)) u (Returned :: invoked w)).
Proof. intros Hl Hc. unfold get_or_compute. by rewrite Hl, Hc. Qed.

Lemma get_or_compute_miss_raised fp compute_fn w cause u :
  load fp w = None → compute_fn (user w) = (Raised cause, u) →
  get_or_compute fp compute_fn w
  = (Err (TransformComputeError cause), mkWorld (cache w) u (Raise cause :: invoked w)).
Proof. intros Hl Hc. unfold get_or_compute. by rewrite Hl, Hc. Qed.

(** A call that returns a table leaves that table stored under the
    fingerprint. *)
Lemma get_or_compute_ok_stored fp compute_fn w t w1 :
  get_or_compute fp compute_fn w = (Ok t, w1) → load fp w1 = Some t.
Proof.
  unfold get_or_compute. destruct (load fp w) as [t0|] eqn:Hl.
  - intros [= <- <-]. exact Hl.
  - destruct (compute_fn (user w)) as [[rs|cause] u]; [|discriminate].
    intros [= <- <-]. unfold load; simpl. apply lookup_insert_eq.
Qed.

(** One call invokes [compute_fn] at most once. *)
Lemma get_or_compute_invokes_at_most_once fp compute_fn w :
  (invocations_since w (get_or_compute fp compute_fn w).2 ≤ 1)%nat.
Proof.
  unfold get_or_compute, invocations_since.
  destruct (load fp w); [simpl; lia|].
  destruct (compute_fn (user w)) as [[rs|cause] u]; simpl; lia.
Qed.

(** Entries present before a call are still there, unchanged, after it. *)
Lemma get_or_compute_keeps_entries fp compute_fn w fp' t :
  load fp' w = Some t → load fp' (get_or_compute fp compute_fn w).2 = Some t.
Proof.
  intros H. unfold get_or_compute. destruct (load fp w) as [t0|] eqn:Hl; [exact H|].
  destruct (compute_fn (user w)) as [[rs|cause] u]; simpl; [|exact H].
  unfold load in *; simpl. rewrite lookup_insert_ne; [exact H|]. congruence.
Qed.

(** *** Two calls in a row *)

(** C2, amended: when the first of two calls returns a table, the second call
    returns the same table and leaves the world as the first call left it, so
    that [compute_fn] is invoked at most once over the two calls. *)
Theorem second_call_returns_cached_table fp compute_fn w t w1 :
  get_or_compute fp compute_fn w = (Ok t, w1) →
  get_or_compute_twice fp compute_fn w = (Ok t, Ok t, w1) ∧
  idempotent_at fp compute_fn w.
Proof.
  intros H1.
  assert (get_or_compute fp compute_fn w1 = (Ok t, w1)) as H2.
  { apply get_or_compute_hit. by apply (get_or_compute_ok_stored fp compute_fn w). }
  assert (get_or_compute_twice fp compute_fn w = (Ok t, Ok t, w1)) as Htwice.
  { unfold get_or_compute_twice. by rewrite H1, H2. }
  split; [exact Htwice|].
  unfold idempotent_at. rewrite Htwice. split; [|reflexivity].
  pose proof (get_or_compute_invokes_at_most_once fp compute_fn w) as Hle.
  by rewrite H1 in Hle.
Qed.

End Facts.

(** *** The model at concrete callers *)

(** C2 as worded fails: a transform that raises leaves nothing to hit, so
    the second call invokes it again. *)
Lemma idempotence_fails_when_compute_raises :
  ¬ idempotent_at "f00d" always_raises (fresh_world tt).
Proof. vm_compute. intros [Hle _]. lia. Qed.

(** A transform whose rows depend on how often it was invoked: the second
    call still returns the rows of the first invocation. *)
Lemma second_call_witness :
  get_or_compute "f00d" counting_fn (fresh_world 0)
  = (Ok (mkTable [0; 1]), mkWorld {["f00d" := mkTable [0; 1]]} 1 [Returned]) ∧
  get_or_compute_twice "f00d" counting_fn (fresh_world 0)
  = (Ok (mkTable [0; 1]), Ok (mkTable [0; 1]),
     mkWorld {["f00d" := mkTable [0; 1]]} 1 [Returned]) ∧
  idempotent_at "f00d" counting_fn (fresh_world 0).
Proof.
  split; [reflexivity|].
  apply (second_call_returns_cached_table "f00d" counting_fn (fresh_world 0)).
  reflexivity.
Defined.

End CacheManagerFacts.
